(** * nile: the call/invoke dispatcher, its CLI commands and the
      response helpers of [nile.common]

    A shallow embedding of [src/nile/core/call_or_invoke.py], of the
    commands of [src/nile/cli.py] that use it, and of the helpers that
    [tests/test_common.py] exercises.

    Python strings are sequences of Unicode code points, exceptions are
    values of a small error type, and the effects of the code (the log
    written through [logging], exceptions) are threaded through a
    state-and-error monad. *)

From Stdlib Require Import String Ascii DecimalString.
From Stdlib Require Import List NArith ZArith Bool Lia.
Import ListNotations.

Set Implicit Arguments.
Set Warnings "-register-all".

(** ** Python strings *)

(** A [str] is a sequence of code points. *)
Definition pystr := list N.

(** The code points of an ASCII literal of the source. *)
Definition lit (s : string) : pystr :=
  map N_of_ascii (list_ascii_of_string s).

Definition nl : N := 10.

(** [s == t] on strings. *)
Fixpoint str_eqb (s t : pystr) : bool :=
  match s, t with
  | [], [] => true
  | c :: s', d :: t' => N.eqb c d && str_eqb s' t'
  | _, _ => false
  end.

(** [s.startswith(p)]. *)
Fixpoint startswith (s p : pystr) {struct p} : bool :=
  match p, s with
  | [], _ => true
  | c :: p', d :: s' => N.eqb c d && startswith s' p'
  | _ :: _, [] => false
  end.

(** [sub in s] for two strings: [sub] occurs in [s] as a contiguous
    substring. *)
Fixpoint contains (sub s : pystr) : bool :=
  startswith s sub ||
  match s with
  | [] => false
  | _ :: s' => contains sub s'
  end.

(** [x in t] for a tuple of strings [t]: some element equals [x]. *)
Definition tuple_mem (x : pystr) (t : list pystr) : bool :=
  existsb (str_eqb x) t.

(** What is left of [s] after the literal [p], when [s] starts with it. *)
Fixpoint strip_prefix (p s : pystr) : option pystr :=
  match p, s with
  | [], _ => Some s
  | c :: p', d :: s' => if N.eqb c d then strip_prefix p' s' else None
  | _ :: _, [] => None
  end.

(** The specification of [in]: a decomposition of the string around an
    occurrence. *)
Definition Substring (sub s : pystr) : Prop :=
  exists pre post, s = pre ++ sub ++ post.

(** ** Exceptions, outcomes and the log *)

Inductive exn_class : Type :=
| StopIteration
| RuntimeError
| TypeError
| ValueError
| KeyError
| BadParameter
| TransactionRejected
| OtherError (name : string).

(** An exception object: its class and [str(err)]. *)
Record exn : Type := Exn { exn_cls : exn_class; exn_str : pystr }.

Inductive outcome (A : Type) : Type :=
| Returned (a : A)
| Raised (e : exn).

Arguments Returned {A} a.
Arguments Raised {A} e.

Inductive level : Type := ERROR | INFO.

(** One record handed to [logging]: its level and its message text. *)
Definition log_record : Type := (level * pystr)%type.
Definition log : Type := list log_record.

(** Code that writes to the log and may raise. *)
Definition M (A : Type) : Type := log -> outcome A * log.

Definition ret {A} (a : A) : M A := fun l => (Returned a, l).

Definition raise {A} (e : exn) : M A := fun l => (Raised e, l).

Definition bind {A B} (m : M A) (k : A -> M B) : M B :=
  fun l =>
    match m l with
    | (Returned a, l') => k a l'
    | (Raised e, l') => (Raised e, l')
    end.

(** [try: m  except BaseException as err: ...]: the outcome of [m] as a
    value, whatever was raised. *)
Definition try {A} (m : M A) : M (outcome A) :=
  fun l => let '(r, l') := m l in (Returned r, l').

Definition lift {A} (r : outcome A) : M A := fun l => (r, l).

Declare Scope py_scope.
Delimit Scope py_scope with py.
Notation "x <- m ;; k" := (bind m (fun x => k))
  (at level 61, m at next level, right associativity) : py_scope.
Notation "' p <- m ;; k" := (bind m (fun x => let p := x in k))
  (at level 61, p pattern, m at next level, right associativity) : py_scope.
Notation "m ;; k" := (bind m (fun _ => k))
  (at level 61, right associativity) : py_scope.
Open Scope py_scope.

Definition logging_error (msg : pystr) : M unit :=
  fun l => (Returned tt, l ++ [(ERROR, msg)]).

Definition logging_info (msg : pystr) : M unit :=
  fun l => (Returned tt, l ++ [(INFO, msg)]).

(** The body of an [async def]: a [StopIteration] that escapes a coroutine
    reaches the awaiting code as a [RuntimeError]. *)
Definition async_def {A} (body : M A) : M A :=
  fun l =>
    match body l with
    | (Raised (Exn StopIteration _), l') =>
        (Raised (Exn RuntimeError (lit "coroutine raised StopIteration")), l')
    | r => r
    end.

(** Truth value of an optional string argument ([None] and [''] are
    false). *)
Definition truthy (s : pystr) : bool :=
  match s with [] => false | _ :: _ => true end.

Definition truthy_opt (o : option pystr) : bool :=
  match o with None => false | Some s => truthy s end.

(** ** [call_or_invoke.py]: extraction of the transaction hash *)

(** The code points that [\d] matches in a [str] pattern: the decimal
    digits of every script (Unicode 14 general category Nd), as inclusive
    ranges.  The first range is ['0'..'9']. *)
Definition Nd_ranges : list (N * N) :=
  [ (48, 57); (1632, 1641); (1776, 1785); (1984, 1993); (2406, 2415);
    (2534, 2543); (2662, 2671); (2790, 2799); (2918, 2927); (3046, 3055);
    (3174, 3183); (3302, 3311); (3430, 3439); (3558, 3567); (3664, 3673);
    (3792, 3801); (3872, 3881); (4160, 4169); (4240, 4249); (6112, 6121);
    (6160, 6169); (6470, 6479); (6608, 6617); (6784, 6793); (6800, 6809);
    (6992, 7001); (7088, 7097); (7232, 7241); (7248, 7257); (42528, 42537);
    (43216, 43225); (43264, 43273); (43472, 43481); (43504, 43513);
    (43600, 43609); (44016, 44025); (65296, 65305); (66720, 66729);
    (68912, 68921); (69734, 69743); (69872, 69881); (69942, 69951);
    (70096, 70105); (70384, 70393); (70736, 70745); (70864, 70873);
    (71248, 71257); (71360, 71369); (71472, 71481); (71904, 71913);
    (72016, 72025); (72784, 72793); (73040, 73049); (73120, 73129);
    (92768, 92777); (92864, 92873); (93008, 93017); (120782, 120831);
    (123200, 123209); (123632, 123641); (125264, 125273);
    (130032, 130041) ]%N.

Definition in_range (c : N) (r : N * N) : bool :=
  (fst r <=? c)%N && (c <=? snd r)%N.

(** [\d] *)
Definition re_digit (c : N) : bool := existsb (in_range c) Nd_ranges.

(** [a-f] *)
Definition re_a_to_f (c : N) : bool := in_range c (97, 102)%N.

(** [[\da-f]] *)
Definition hash_char (c : N) : bool := re_digit c || re_a_to_f c.

(** The lowercase hexadecimal digits, [0-9a-f]. *)
Definition lower_hex (c : N) : bool :=
  in_range c (48, 57)%N || in_range c (97, 102)%N.

(** The uppercase letters of hexadecimal notation, [A-F]. *)
Definition upper_hex (c : N) : bool := in_range c (65, 70)%N.

(** A greedy repetition [X{0,n}] of a character class with nothing after
    it in the pattern: the longest run of at most [n] characters. *)
Fixpoint greedy (cls : N -> bool) (n : nat) (s : pystr) : pystr :=
  match n, s with
  | S n', c :: s' => if cls c then c :: greedy cls n' s' else []
  | _, _ => []
  end.

(** The pattern anchored at the start of [s], with the class of the
    repeated character left open: the literal ["Transaction hash: "], then
    the group, ["0x"] and one to 64 characters of the class.  The result
    is the group. *)
Definition match_here (cls : N -> bool) (s : pystr) : option pystr :=
  match strip_prefix (lit "Transaction hash: ") s with
  | Some r =>
      match strip_prefix (lit "0x") r with
      | Some digits =>
          match greedy cls 64 digits with
          | [] => None
          | run => Some (lit "0x" ++ run)
          end
      | None => None
      end
  | None => None
  end.

(** [re.search]: the match at the leftmost position that has one. *)
Fixpoint re_search (cls : N -> bool) (s : pystr) : option pystr :=
  match match_here cls s with
  | Some g => Some g
  | None =>
      match s with
      | [] => None
      | _ :: s' => re_search cls s'
      end
  end.

(** [re.search(r"Transaction hash: (0x[\da-f]{1,64})", string)] and the
    first group of the match, or [None]. *)
Definition _get_transaction_hash (string : pystr) : option pystr :=
  re_search hash_char string.

(** The extraction as the specification words it: the same search with
    the class of lowercase hexadecimal digits. *)
Definition spec_transaction_hash (string : pystr) : option pystr :=
  re_search lower_hex string.

(** An occurrence of the pattern in [s]: after [pre], the literal, ["0x"]
    and the run [ds] of one to 64 characters of the class, which stops at
    64 characters, at the end of the string or before a character outside
    the class. *)
Definition occurrence (cls : N -> bool) (s pre ds post : pystr) : Prop :=
  s = pre ++ lit "Transaction hash: 0x" ++ ds ++ post /\
  (1 <= length ds <= 64)%nat /\
  Forall (fun c => cls c = true) ds /\
  (length ds = 64%nat \/ post = [] \/
   exists c post', post = c :: post' /\ cls c = false).

(** Some occurrence of the pattern starts in [s] after [pre]. *)
Definition occurs_at (cls : N -> bool) (s pre : pystr) : Prop :=
  exists c rest,
    s = pre ++ lit "Transaction hash: 0x" ++ c :: rest /\ cls c = true.

(** [str(n)] for an integer. *)
Definition str_Z (z : Z) : pystr := lit (NilZero.string_of_int (Z.to_int z)).

(** ** [call_or_invoke.py]: the dispatcher *)

Module account.

(** What the dispatcher reads of an [account.Account]. *)
Record Account : Type := { address : pystr; abi_path : pystr }.

End account.

(** The [contract] argument: an [Account] instance, or an address or alias
    to look up in the deployments. *)
Inductive contract_ref : Type :=
| AccountRef (a : account.Account)
| Identifier (name : pystr).

(** The arguments [execute_call] receives. *)
Record call_args : Type := {
  arg_type : pystr;
  arg_network : pystr;
  arg_inputs : list pystr;
  arg_signature : option (list pystr);
  arg_max_fee : option pystr;
  arg_query_flag : option pystr;
  arg_address : pystr;
  arg_abi : pystr;
  arg_method : pystr
}.

(** The call [execute_call(type, network, inputs=params, ...)] of lines
    43 to 53, as the arguments it passes. *)
Definition request (type network : pystr) (params : list pystr)
  (signature : option (list pystr)) (max_fee query_flag : option pystr)
  (address abi method : pystr) : call_args :=
  {| arg_type := type; arg_network := network; arg_inputs := params;
     arg_signature := signature; arg_max_fee := max_fee;
     arg_query_flag := query_flag; arg_address := address; arg_abi := abi;
     arg_method := method |}.

(** [next(g)] on a generator that yields the elements of [g]. *)
Definition next {A} (g : list A) : outcome A :=
  match g with
  | [] => Raised (Exn StopIteration [])
  | x :: _ => Returned x
  end.

(** The text of the one [logging.error] call of the max-fee branch. *)
Definition max_fee_help : pystr :=
  [nl] ++ lit "                " ++ [nl] ++ [128560%N]
  ++ lit " Whoops, looks like max fee is missing. Try with:" ++ [nl]
  ++ [nl] ++ lit "                --max_fee=`MAX_FEE`"
  ++ [nl] ++ lit "                ".

Section Dispatcher.

(** The object [status] returns is opaque to the dispatcher. *)
Variable report : Type.

(** The values [call_or_invoke] returns. *)
Inductive value : Type :=
| VNone
| VStr (s : pystr)
| VReport (r : report).

(** The collaborators of the dispatcher that live in other modules:
    [deployments.load] (the pairs its generator yields, in order),
    [execute_call], [normalize_number] and [status], and what Python asks
    of a report object when it is unpacked or formatted.  The output of
    [execute_call] is taken to be text, which is what the search of
    [_get_transaction_hash] and the docstring of the dispatcher suppose;
    an output of another kind is outside this model. *)
Record Env : Type := {
  deployments_load : pystr -> pystr -> list (pystr * pystr);
  execute_call : call_args -> M pystr;
  normalize_number : option pystr -> M Z;
  status : Z -> pystr -> option pystr -> M report;
  iter_report : report -> option (list value);
  str_report : report -> pystr;
  type_report : pystr
}.

Variable E : Env.

(** Lines 36 to 40: the address and the abi of the target. *)
Definition resolve (contract : contract_ref) (network : pystr)
  : outcome (pystr * pystr) :=
  match contract with
  | AccountRef a => Returned (account.address a, account.abi_path a)
  | Identifier name => next (deployments_load E name network)
  end.

(** Lines 54 to 74: what becomes of the outcome of [execute_call], the
    [except] branch and the code after the [try] statement. *)
Definition translate (type network : pystr)
  (query_flag watch_mode : option pystr) (r : outcome pystr) : M value :=
  match r with
  | Raised err =>
      if contains (lit "max_fee must be bigger than 0.") (exn_str err) then
        logging_error max_fee_help ;;
        ret VNone
      else
        logging_error (exn_str err) ;;
        ret VNone
  | Returned output =>
      if negb (str_eqb type (lit "call")) && truthy output then
        logging_info output ;;
        if negb (truthy_opt query_flag) && truthy_opt watch_mode then
          let transaction_hash := _get_transaction_hash output in
          n <- normalize_number E transaction_hash ;;
          st <- status E n network watch_mode ;;
          ret (VReport st)
        else
          ret (VStr output)
      else
        ret (VStr output)
  end.

(** Lines 42 to 74, for a resolved target: the call inside the [try]
    statement, then the translation of its outcome. *)
Definition dispatch (address abi : pystr) (type method : pystr)
  (params : list pystr) (network : pystr) (signature : option (list pystr))
  (max_fee query_flag watch_mode : option pystr) : M value :=
  r <- try (execute_call E
              (request type network params signature max_fee query_flag
                 address abi method)) ;;
  translate type network query_flag watch_mode r.

Definition call_or_invoke (contract : contract_ref) (type method : pystr)
  (params : list pystr) (network : pystr) (signature : option (list pystr))
  (max_fee query_flag watch_mode : option pystr) : M value :=
  async_def (
    ' (address, abi) <- lift (resolve contract network) ;;
    dispatch address abi type method params network signature max_fee
      query_flag watch_mode).

(** The condition under which [status] is consulted. *)
Definition watch_taken (type output : pystr)
  (query_flag watch_mode : option pystr) : bool :=
  negb (str_eqb type (lit "call")) && truthy output
  && negb (truthy_opt query_flag) && truthy_opt watch_mode.

End Dispatcher.

Arguments VNone {report}.
Arguments VStr {report} s.

(** ** [cli.py]: the network option and the [invoke] and [call] commands *)

Module cli.

Definition NETWORKS : list pystr :=
  [lit "localhost"; lit "goerli"; lit "mainnet"].

(** [f"{NETWORKS}"], the display of the tuple. *)
Definition NETWORKS_repr : pystr :=
  lit "('localhost', 'goerli', 'mainnet')".

Definition _validate_network (value : pystr) : outcome pystr :=
  if contains (lit "goerli") value || contains (lit "testnet") value then
    Returned (lit "goerli")
  else if contains (lit "localhost") value
          || contains (lit "127.0.0.1") value then
    Returned (lit "localhost")
  else if tuple_mem value NETWORKS then
    Returned value
  else
    Raised (Exn BadParameter
              (lit "'" ++ value ++ lit "'. Use one of " ++ NETWORKS_repr)).

(** The two families of names that are normalised. *)
Definition goerli_like (value : pystr) : Prop :=
  Substring (lit "goerli") value \/ Substring (lit "testnet") value.

Definition localhost_like (value : pystr) : Prop :=
  Substring (lit "localhost") value \/ Substring (lit "127.0.0.1") value.

Section Commands.

Variable report : Type.
Variable E : Env report.

(** [str(v)], as an f-string and [logging] format a value. *)
Definition str (v : value report) : pystr :=
  match v with
  | VNone => lit "None"
  | VStr s => s
  | VReport r => str_report E r
  end.

(** The name of the class of a value, as error messages show it. *)
Definition type_name (v : value report) : pystr :=
  match v with
  | VNone => lit "NoneType"
  | VStr _ => lit "str"
  | VReport _ => type_report E
  end.

(** The elements [iter(v)] yields, or [None] when [v] is not iterable. *)
Definition iter (v : value report) : option (list (value report)) :=
  match v with
  | VNone => None
  | VStr s => Some (map (fun c => VStr [c]) s)
  | VReport r => iter_report E r
  end.

(** The assignment [a, b = v]. *)
Definition unpack2 (v : value report)
  : outcome (value report * value report) :=
  match iter v with
  | None =>
      Raised (Exn TypeError
                (lit "cannot unpack non-iterable " ++ type_name v
                 ++ lit " object"))
  | Some [a; b] => Returned (a, b)
  | Some (_ :: _ :: _ :: _) =>
      Raised (Exn ValueError (lit "too many values to unpack (expected 2)"))
  | Some items =>
      Raised (Exn ValueError
                (lit "not enough values to unpack (expected 2, got "
                 ++ str_Z (Z.of_nat (length items)) ++ lit ")"))
  end.

Definition invoke (contract_name method : pystr) (params : list pystr)
  (network : pystr) (max_fee : option pystr) : M unit :=
  async_def (
    r <- call_or_invoke E (Identifier contract_name) (lit "invoke") method
           params network None max_fee None None ;;
    ' (address, tx_hash) <- lift (unpack2 r) ;;
    logging_info (lit "Invoke transaction was sent.") ;;
    logging_info (lit "Contract address: " ++ str address) ;;
    logging_info (lit "Transaction hash: " ++ str tx_hash)).

Definition call (contract_name method : pystr) (params : list pystr)
  (network : pystr) : M unit :=
  async_def (
    result <- call_or_invoke E (Identifier contract_name) (lit "call") method
                params network None None None None ;;
    logging_info (str result)).

End Commands.

End cli.

(** ** [nile.common]: the response helpers and [stringify]

    The module itself is not among the sources; its tests are. *)

Module common.

(** The Python values these helpers handle: strings, integers and nested
    sequences of them. *)
Inductive pyobj : Type :=
| PStr (s : pystr)
| PInt (z : Z)
| PList (items : list pyobj).

(** A response body: a dictionary with string keys, in insertion order. *)
Definition response : Type := list (pystr * pyobj).

Fixpoint lookup (key : pystr) (d : response) : option pyobj :=
  match d with
  | [] => None
  | (k, v) :: d' => if str_eqb k key then Some v else lookup key d'
  end.

(** [sep.join(parts)] *)
Fixpoint join (sep : pystr) (parts : list pystr) : pystr :=
  match parts with
  | [] => []
  | [p] => p
  | p :: rest => p ++ sep ++ join sep rest
  end.

Definition hex_digit (n : N) : N :=
  if (n <? 10)%N then (48 + n)%N else (87 + n)%N.

(** One character inside the quotes [q] of the display of a string. *)
Definition repr_char (q c : N) : pystr :=
  if (c =? 92)%N then lit "\\"
  else if (c =? q)%N then [92%N; q]
  else if (c =? 10)%N then lit "\n"
  else if (c =? 13)%N then lit "\r"
  else if (c =? 9)%N then lit "\t"
  else if (c <? 32)%N || (c =? 127)%N then
    lit "\x" ++ [hex_digit (c / 16); hex_digit (c mod 16)]
  else [c].

(** Modelled from the spec: the text of a raw response body inside the
    failure message, which the spec shows as Python displays it
    (['code'] for the string [code]).  Quotes, backslashes and ASCII
    control characters are escaped; other characters stand for
    themselves. *)
Definition repr_str (s : pystr) : pystr :=
  let q : N :=
    if existsb (N.eqb 39) s && negb (existsb (N.eqb 34) s) then 34%N
    else 39%N in
  [q] ++ flat_map (repr_char q) s ++ [q].

Fixpoint repr (o : pyobj) : pystr :=
  match o with
  | PStr s => repr_str s
  | PInt z => str_Z z
  | PList items => lit "[" ++ join (lit ", ") (map repr items) ++ lit "]"
  end.

Definition repr_dict (d : response) : pystr :=
  lit "{"
  ++ join (lit ", ")
       (map (fun kv => repr_str (fst kv) ++ lit ": " ++ repr (snd kv)) d)
  ++ lit "}".

(** [StarkErrorCode.TRANSACTION_RECEIVED.name], the success code of the
    tests. *)
Definition TRANSACTION_RECEIVED : pyobj := PStr (lit "TRANSACTION_RECEIVED").

Definition pyobj_eqb_str (o : pyobj) (s : pystr) : bool :=
  match o with
  | PStr t => str_eqb t s
  | _ => false
  end.

(** The response carries the success code. *)
Definition success_code (r : response) : bool :=
  match lookup (lit "code") r with
  | Some c => pyobj_eqb_str c (lit "TRANSACTION_RECEIVED")
  | None => false
  end.

(** The response carries a code that is not the success code. *)
Definition failure_code (r : response) : bool :=
  match lookup (lit "code") r with
  | Some c => negb (pyobj_eqb_str c (lit "TRANSACTION_RECEIVED"))
  | None => false
  end.

Definition rejected (r : response) : exn :=
  Exn TransactionRejected
    (lit "Transaction failed because:" ++ [nl] ++ repr_dict r ++ lit ".").

Section Clients.

(** A transaction, opaque here. *)
Variable tx : Type.

(** The round trips, [GatewayClient.add_transaction] and
    [FeederGatewayClient.call_contract], which the tests mock. *)
Variable add_transaction : tx -> option pystr -> M response.
Variable call_contract : tx -> M response.

(** Modelled from the spec: [get_gateway_response] of [nile.common]
    (the spec's submitTransaction) is missing from the sources.  One round
    trip to the gateway; a response whose code is the success code is
    returned, any other fails with the raw body in the message. *)
Definition get_gateway_response (network : pystr) (t : tx)
  (token : option pystr) : M response :=
  gateway_response <- add_transaction t token ;;
  if success_code gateway_response then ret gateway_response
  else raise (rejected gateway_response).

(** Modelled from the spec: [get_feeder_response] of [nile.common] (the
    spec's queryFeeder) is missing from the sources.  One round trip to
    the feeder; the [result] field of the response is returned, and a
    response with a code that is not the success code fails as a gateway
    response does. *)
Definition get_feeder_response (network : pystr) (t : tx) : M pyobj :=
  feeder_response <- call_contract t ;;
  if failure_code feeder_response then raise (rejected feeder_response)
  else
    match lookup (lit "result") feeder_response with
    | Some result => ret result
    | None => raise (Exn KeyError (repr_str (lit "result")))
    end.

End Clients.

(** [str(x)] for a scalar. *)
Definition str_scalar (o : pyobj) : pystr :=
  match o with
  | PStr s => s
  | PInt z => str_Z z
  | PList _ => repr o
  end.

(** Modelled from the spec: [stringify] of [nile.common] is missing from
    the sources.  It keeps the nesting of a sequence and turns every
    scalar leaf into its string form. *)
Fixpoint stringify (x : pyobj) : pyobj :=
  match x with
  | PList items => PList (map stringify items)
  | leaf => PStr (str_scalar leaf)
  end.

(** The nesting of a value, without its leaves. *)
Inductive nesting : Type :=
| Leaf
| Seq (items : list nesting).

Fixpoint nesting_of (x : pyobj) : nesting :=
  match x with
  | PList items => Seq (map nesting_of items)
  | _ => Leaf
  end.

(** The scalar leaves of a value, left to right. *)
Fixpoint leaves (x : pyobj) : list pyobj :=
  match x with
  | PList items => flat_map leaves items
  | leaf => [leaf]
  end.

(** A nested sequence of integers. *)
Definition ints (zs : list Z) : list pyobj := map PInt zs.

Definition strs (ss : list string) : list pyobj :=
  map (fun s => PStr (lit s)) ss.

(** The lists of [tests/test_common.py]. *)
Definition LIST1 : pyobj := PList (ints [1; 2; 3]%Z).
Definition LIST2 : pyobj :=
  PList (ints [1; 2; 3]%Z ++ [PList (ints [4; 5; 6]%Z)]).
Definition LIST3 : pyobj :=
  PList (ints [1; 2; 3]%Z
         ++ [PList (ints [4; 5; 6]%Z ++ [PList (ints [7; 8; 9]%Z)])]).

Definition TX_RECEIVED : response :=
  [(lit "code", TRANSACTION_RECEIVED); (lit "result", PStr (lit "test"))].
Definition TX_FAILED : response := [(lit "code", PStr (lit "test"))].

(** A response of the feeder with a result and a code that is not the
    success code. *)
Definition TX_FAILED_WITH_RESULT : response :=
  [(lit "code", PStr (lit "test")); (lit "result", PInt 7)].

End common.

(** ** Scripted collaborators, for the examples

    [deployments.load] yields [found] whatever the identifier,
    [execute_call] ends with the outcome [exec] without logging,
    [normalize_number] returns 0 and [status] reports the number it was
    given. *)
Definition scripted (found : list (pystr * pystr)) (exec : outcome pystr)
  : Env Z :=
  {| deployments_load := fun _ _ => found;
     execute_call := fun _ => lift exec;
     normalize_number := fun _ => ret 0%Z;
     status := fun n _ _ => ret n;
     iter_report := fun _ => None;
     str_report := str_Z;
     type_report := lit "int" |}.

(** One deployment, as [deployments.load] yields it. *)
Definition a_deployment : list (pystr * pystr) :=
  [(lit "0x1", lit "artifacts/abis/contract.json")].

(** Two failures of [execute_call], with and without the max-fee text, and
    an output of a successful invoke that carries no transaction hash. *)
Definition fee_error : exn :=
  Exn (OtherError "StarkException")
    (lit "Error: max_fee must be bigger than 0.").

Definition other_error : exn :=
  Exn (OtherError "StarkException") (lit "Entry point not found.").

Definition sent_without_hash : pystr := lit "Invoke transaction was sent.".

(** The output of a successful invoke, with its three lines. *)
Definition sent_with_hash : pystr :=
  lit "Invoke transaction was sent." ++ [nl]
  ++ lit "Contract address: 0x07" ++ [nl]
  ++ lit "Transaction hash: 0x1f".

(** Collaborators for which the watch fails: [execute_call] returns
    [output], [normalize_number] returns 0 and [status] raises. *)
Definition watch_fails (found : list (pystr * pystr)) (output : pystr)
  : Env Z :=
  {| deployments_load := fun _ _ => found;
     execute_call := fun _ => ret output;
     normalize_number := fun _ => ret 0%Z;
     status := fun _ _ _ => raise other_error;
     iter_report := fun _ => None;
     str_report := str_Z;
     type_report := lit "int" |}.

(** Collaborators that show what [execute_call] was given: its output is
    the address and the abi of the request, separated by a space.  The
    deployments hold two records for every identifier. *)
Definition echo_target : Env Z :=
  {| deployments_load :=
       fun _ _ => [(lit "0x1", lit "first.json"); (lit "0x2", lit "second.json")];
     execute_call :=
       fun args => ret (arg_address args ++ lit " " ++ arg_abi args);
     normalize_number := fun _ => ret 0%Z;
     status := fun n _ _ => ret n;
     iter_report := fun _ => None;
     str_report := str_Z;
     type_report := lit "int" |}.

Definition an_account : account.Account :=
  {| account.address := lit "0xacc"; account.abi_path := lit "Account.json" |}.


Arguments lit : simpl never.

(** * Properties *)

(** ** Strings *)

Lemma str_eqb_eq (s t : pystr) : str_eqb s t = true <-> s = t.
Proof.
  revert t; induction s as [|c s IH]; intros [|d t]; simpl;
    try (split; [discriminate | discriminate]); try tauto.
  rewrite andb_true_iff, N.eqb_eq, IH.
  split; [intros [-> ->]; reflexivity | intros [= -> ->]; auto].
Qed.

Lemma str_eqb_refl (s : pystr) : str_eqb s s = true.
Proof. apply str_eqb_eq; reflexivity. Qed.

Lemma strip_prefix_spec (p s r : pystr) :
  strip_prefix p s = Some r <-> s = p ++ r.
Proof.
  revert s; induction p as [|c p IH]; intros s; simpl.
  - split; [intros [= ->] | intros ->]; reflexivity.
  - destruct s as [|d s]; [split; discriminate|].
    destruct (N.eqb_spec c d) as [->|ne].
    + rewrite IH; split; [intros -> | intros [= ->]]; reflexivity.
    + split; [discriminate | intros [= e _]; congruence].
Qed.

Lemma startswith_spec (s p : pystr) :
  startswith s p = true <-> exists post, s = p ++ post.
Proof.
  revert s; induction p as [|c p IH]; intros s; simpl.
  - split; [exists s; reflexivity | reflexivity].
  - destruct s as [|d s].
    + split; [discriminate | intros [post [=]]].
    + rewrite andb_true_iff, N.eqb_eq, IH; split.
      * intros [-> [post ->]]; exists post; reflexivity.
      * intros [post [= -> ->]]; split; [reflexivity | exists post; reflexivity].
Qed.

Lemma contains_spec (sub s : pystr) :
  contains sub s = true <-> Substring sub s.
Proof.
  unfold Substring; induction s as [|d s IH].
  - simpl; rewrite orb_false_r, startswith_spec; split.
    + intros [post e]; exists [], post; exact e.
    + intros [[|x pre] [post e]]; [exists post; exact e | discriminate].
  - cbn [contains]; rewrite orb_true_iff, startswith_spec, IH; split.
    + intros [[post e] | [pre [post e]]].
      * exists [], post; exact e.
      * exists (d :: pre), post; rewrite e; reflexivity.
    + intros [[|x pre] [post e]].
      * left; exists post; exact e.
      * right; injection e as _ e; exists pre, post; exact e.
Qed.

Lemma contains_false (sub s : pystr) :
  contains sub s = false -> ~ Substring sub s.
Proof.
  intros e h; apply contains_spec in h; congruence.
Qed.

Lemma tuple_mem_spec (x : pystr) (t : list pystr) :
  tuple_mem x t = true <-> In x t.
Proof.
  unfold tuple_mem; rewrite existsb_exists; split.
  - intros [y [i e]]; apply str_eqb_eq in e; subst; exact i.
  - intros i; exists x; split; [exact i | apply str_eqb_refl].
Qed.

(** ** The network option *)

Lemma goerli_like_spec (value : pystr) :
  contains (lit "goerli") value || contains (lit "testnet") value = true
  <-> cli.goerli_like value.
Proof.
  unfold cli.goerli_like; rewrite orb_true_iff, !contains_spec; tauto.
Qed.

Lemma localhost_like_spec (value : pystr) :
  contains (lit "localhost") value || contains (lit "127.0.0.1") value = true
  <-> cli.localhost_like value.
Proof.
  unfold cli.localhost_like; rewrite orb_true_iff, !contains_spec; tauto.
Qed.

(** C9: [_validate_network] returns "goerli" for every value that
    contains "goerli" or "testnet"; otherwise "localhost" for every value
    that contains "localhost" or "127.0.0.1"; otherwise the value itself
    when it is one of [NETWORKS]; and for every other value it raises a
    parameter error instead of returning. *)
Theorem validate_network_cases (value : pystr) :
  (cli.goerli_like value ->
   cli._validate_network value = Returned (lit "goerli")) /\
  (~ cli.goerli_like value -> cli.localhost_like value ->
   cli._validate_network value = Returned (lit "localhost")) /\
  (~ cli.goerli_like value -> ~ cli.localhost_like value ->
   In value cli.NETWORKS ->
   cli._validate_network value = Returned value) /\
  (~ cli.goerli_like value -> ~ cli.localhost_like value ->
   ~ In value cli.NETWORKS ->
   cli._validate_network value =
   Raised (Exn BadParameter
             (lit "'" ++ value ++ lit "'. Use one of "
              ++ lit "('localhost', 'goerli', 'mainnet')"))).
Proof.
  unfold cli._validate_network.
  pose proof (goerli_like_spec value) as G.
  pose proof (localhost_like_spec value) as L.
  pose proof (tuple_mem_spec value cli.NETWORKS) as T.
  destruct (contains (lit "goerli") value || contains (lit "testnet") value).
  - repeat split; intros; try reflexivity; exfalso; tauto.
  - assert (~ cli.goerli_like value) as ng
      by (intros g; apply G in g; discriminate).
    destruct (contains (lit "localhost") value
              || contains (lit "127.0.0.1") value).
    + repeat split; intros; try reflexivity; exfalso; tauto.
    + assert (~ cli.localhost_like value) as nl'
        by (intros g; apply L in g; discriminate).
      destruct (tuple_mem value cli.NETWORKS).
      * repeat split; intros; try reflexivity; exfalso; tauto.
      * assert (~ In value cli.NETWORKS) as nt
          by (intros g; apply T in g; discriminate).
        repeat split; intros; try reflexivity; exfalso; tauto.
Qed.

Lemma validate_network_cases_witness :
  cli._validate_network (lit "mainnet") = Returned (lit "mainnet").
Proof.
  apply (proj1 (proj2 (proj2 (validate_network_cases (lit "mainnet"))))).
  - intros [h | h]; revert h; apply contains_false; reflexivity.
  - intros [h | h]; revert h; apply contains_false; reflexivity.
  - right; right; left; reflexivity.
Defined.

(** ** The transaction hash *)

Lemma hash_prefix_split :
  lit "Transaction hash: 0x" = lit "Transaction hash: " ++ lit "0x".
Proof. reflexivity. Qed.

Lemma strip_prefix_app (p r : pystr) : strip_prefix p (p ++ r) = Some r.
Proof. apply strip_prefix_spec; reflexivity. Qed.

Section Search.

Variable cls : N -> bool.

Lemma greedy_spec (n : nat) (s : pystr) :
  exists post,
    s = greedy cls n s ++ post /\
    (length (greedy cls n s) <= n)%nat /\
    Forall (fun c => cls c = true) (greedy cls n s) /\
    (length (greedy cls n s) = n \/ post = [] \/
     exists c post', post = c :: post' /\ cls c = false).
Proof.
  revert s; induction n as [|n IH]; intros s.
  - exists s; simpl; repeat split; auto.
  - destruct s as [|c s]; simpl.
    + exists []; repeat split; auto; lia.
    + destruct (cls c) eqn:e.
      * destruct (IH s) as [post [e1 [e2 [e3 e4]]]].
        exists post; simpl; split; [f_equal; exact e1|].
        split; [lia|]; split; [constructor; assumption|].
        destruct e4 as [e4 | [e4 | e4]]; [left; lia | auto | auto].
      * exists (c :: s); simpl; repeat split; auto; [lia|].
        right; right; exists c, s; auto.
Qed.

Lemma match_here_Some (s g : pystr) :
  match_here cls s = Some g ->
  exists ds post, g = lit "0x" ++ ds /\ occurrence cls s [] ds post.
Proof.
  unfold match_here.
  destruct (strip_prefix (lit "Transaction hash: ") s) as [r|] eqn:e1;
    [|discriminate].
  destruct (strip_prefix (lit "0x") r) as [digits|] eqn:e2; [|discriminate].
  apply strip_prefix_spec in e1, e2.
  destruct (greedy_spec 64 digits) as [post [h1 [h2 [h3 h4]]]].
  destruct (greedy cls 64 digits) as [|d run] eqn:e3; [discriminate|].
  intros [= <-]; exists (d :: run), post; split; [reflexivity|].
  unfold occurrence; repeat split; try assumption.
  - rewrite e1, e2, h1, hash_prefix_split, <- app_assoc; reflexivity.
  - simpl; lia.
Qed.

Lemma match_here_occurs (s : pystr) :
  occurs_at cls s [] -> exists g, match_here cls s = Some g.
Proof.
  intros [c [rest [-> hc]]]; unfold match_here.
  rewrite hash_prefix_split, app_nil_l, <- app_assoc.
  rewrite !strip_prefix_app.
  cbn [greedy]; rewrite hc; eexists; reflexivity.
Qed.

Lemma occurs_at_tail (a : N) (s pre : pystr) :
  occurs_at cls (a :: s) (a :: pre) -> occurs_at cls s pre.
Proof.
  intros [c [rest [e hc]]]; exists c, rest; split; [|exact hc].
  injection e as e; exact e.
Qed.

Lemma occurs_at_head (a b : N) (s pre : pystr) :
  occurs_at cls (a :: s) (b :: pre) -> a = b.
Proof.
  intros [c [rest [e _]]]; injection e as e _; exact e.
Qed.

Lemma re_search_Some (s g : pystr) :
  re_search cls s = Some g ->
  exists pre suffix,
    s = pre ++ suffix /\ match_here cls suffix = Some g /\
    forall pre', occurs_at cls s pre' -> (length pre <= length pre')%nat.
Proof.
  induction s as [|a s IH]; cbn [re_search];
    destruct (match_here cls _) as [g'|] eqn:m.
  - intros [= <-]; exists [], []; repeat split; auto; simpl; intros; lia.
  - discriminate.
  - intros [= <-]; exists [], (a :: s); repeat split; auto; simpl; intros; lia.
  - intros e; destruct (IH e) as [pre [suffix [e1 [e2 e3]]]].
    exists (a :: pre), suffix; split; [rewrite e1; reflexivity|].
    split; [exact e2|]; intros [|b pre'] o.
    + destruct (match_here_occurs o) as [g0 m0]; congruence.
    + pose proof (occurs_at_head o) as <-.
      apply occurs_at_tail, e3 in o; simpl; lia.
Qed.

Lemma re_search_None (s : pystr) :
  re_search cls s = None -> forall pre, ~ occurs_at cls s pre.
Proof.
  induction s as [|a s IH]; cbn [re_search];
    destruct (match_here cls _) as [g'|] eqn:m; try discriminate.
  - intros _ [|b pre] o.
    + destruct (match_here_occurs o) as [g0 m0]; congruence.
    + destruct o as [c [rest [e _]]]; discriminate.
  - intros e [|b pre] o.
    + destruct (match_here_occurs o) as [g0 m0]; congruence.
    + pose proof (occurs_at_head o) as <-.
      apply occurs_at_tail in o; exact (IH e pre o).
Qed.

Lemma occurrence_shift (pre suffix ds post : pystr) :
  occurrence cls suffix [] ds post ->
  occurrence cls (pre ++ suffix) pre ds post.
Proof.
  intros [e rest]; split; [rewrite e; reflexivity | exact rest].
Qed.

(** The search, whatever the class of the repeated character: what it
    returns is the group of the leftmost occurrence, with the longest run
    the bounds allow, and it returns nothing only when nothing occurs. *)
Lemma re_search_spec (s : pystr) :
  match re_search cls s with
  | Some h =>
      exists pre ds post,
        h = lit "0x" ++ ds /\ occurrence cls s pre ds post /\
        forall pre', occurs_at cls s pre' -> (length pre <= length pre')%nat
  | None => forall pre, ~ occurs_at cls s pre
  end.
Proof.
  destruct (re_search cls s) as [h|] eqn:e.
  - destruct (re_search_Some _ e) as [pre [suffix [e1 [e2 e3]]]].
    destruct (match_here_Some _ e2) as [ds [post [e4 e5]]].
    exists pre, ds, post; split; [exact e4|]; split; [|exact e3].
    rewrite e1; apply occurrence_shift; exact e5.
  - apply re_search_None; exact e.
Qed.

End Search.

(** The class [[\da-f]] contains the lowercase hexadecimal digits. *)
Lemma lower_hex_hash_char (c : N) : lower_hex c = true -> hash_char c = true.
Proof.
  unfold lower_hex, hash_char, re_digit, re_a_to_f, Nd_ranges.
  intros h; apply orb_true_iff in h; destruct h as [h | h].
  - cbn [existsb]; rewrite h; reflexivity.
  - rewrite h; apply orb_true_r.
Qed.

(** It contains none of the uppercase ones. *)
Lemma upper_hex_hash_char (c : N) : upper_hex c = true -> hash_char c = false.
Proof.
  unfold upper_hex, in_range; cbn [fst snd]; intros h.
  apply andb_true_iff in h; destruct h as [h1 h2].
  apply N.leb_le in h1, h2.
  assert (c = 65 \/ c = 66 \/ c = 67 \/ c = 68 \/ c = 69 \/ c = 70)%N
    as cases by lia.
  repeat (destruct cases as [-> | cases]; [reflexivity|]).
  subst c; reflexivity.
Qed.

(** C10, amended: [_get_transaction_hash] is total; it returns the first
    substring made of 0x and of one to 64 characters of the class
    [[\da-f]] (every decimal digit that [\d] matches, the ASCII digits
    among them, and the letters a to f), the longest such run, that
    directly follows the text "Transaction hash: ", and [None] when no
    such substring exists; the class has no uppercase hexadecimal digit,
    so no hash that is returned is written with one. *)
Theorem get_transaction_hash_spec :
  (forall string : pystr,
     match _get_transaction_hash string with
     | Some h =>
         exists pre ds post,
           h = lit "0x" ++ ds /\ occurrence hash_char string pre ds post /\
           forall pre', occurs_at hash_char string pre' ->
                        (length pre <= length pre')%nat
     | None => forall pre, ~ occurs_at hash_char string pre
     end) /\
  (forall c, lower_hex c = true -> hash_char c = true) /\
  (forall c, upper_hex c = true -> hash_char c = false).
Proof.
  split; [|split].
  - intros string; apply re_search_spec.
  - exact lower_hex_hash_char.
  - exact upper_hex_hash_char.
Qed.

Lemma get_transaction_hash_spec_witness :
  (exists pre ds post,
     lit "0x1f" = lit "0x" ++ ds /\
     occurrence hash_char (lit "Transaction hash: 0x1fA") pre ds post /\
     forall pre', occurs_at hash_char (lit "Transaction hash: 0x1fA") pre' ->
                  (length pre <= length pre')%nat) /\
  hash_char 102 = true /\ hash_char 65 = false.
Proof.
  split; [|split].
  - exact (proj1 get_transaction_hash_spec (lit "Transaction hash: 0x1fA")).
  - apply (proj1 (proj2 get_transaction_hash_spec)); reflexivity.
  - apply (proj2 (proj2 get_transaction_hash_spec)); reflexivity.
Defined.

(** C10, as stated, fails: after "Transaction hash: 0x" stands U+0661, a
    decimal digit for [\d] and no hexadecimal digit; no substring of the
    claimed form exists, and the function returns a hash all the same. *)
Lemma get_transaction_hash_unicode_digit :
  _get_transaction_hash (lit "Transaction hash: 0x" ++ [1633%N])
  = Some (lit "0x" ++ [1633%N]) /\
  lower_hex 1633 = false /\
  spec_transaction_hash (lit "Transaction hash: 0x" ++ [1633%N]) = None /\
  forall pre,
    ~ occurs_at lower_hex (lit "Transaction hash: 0x" ++ [1633%N]) pre.
Proof.
  repeat split; try reflexivity.
  apply re_search_None; reflexivity.
Qed.

(** A hash written with uppercase digits only yields nothing, and one that
    starts with lowercase digits is cut at the first uppercase one. *)
Example get_transaction_hash_uppercase :
  _get_transaction_hash (lit "Transaction hash: 0xABCDEF") = None /\
  _get_transaction_hash (lit "Transaction hash: 0x1ABC") = Some (lit "0x1").
Proof. split; reflexivity. Qed.

(** ** The dispatcher *)

Ltac run_monad :=
  unfold call_or_invoke, dispatch, translate, async_def, bind, try, lift,
    ret, raise, logging_error, logging_info.

Section DispatcherFacts.

Variable report : Type.
Variable E : Env report.

Variables (type method : pystr) (params : list pystr) (network : pystr).
Variables (signature : option (list pystr)).
Variables (max_fee query_flag watch_mode : option pystr).

(** What [execute_call] receives for a target. *)
Local Abbreviation req address abi :=
  (request type network params signature max_fee query_flag address abi
     method).

Lemma call_or_invoke_resolved (contract : contract_ref)
  (address abi : pystr) :
  resolve E contract network = Returned (address, abi) ->
  call_or_invoke E contract type method params network signature max_fee
    query_flag watch_mode
  = async_def (dispatch E address abi type method params network signature
                 max_fee query_flag watch_mode).
Proof.
  intros e; unfold call_or_invoke, bind, lift; rewrite e; reflexivity.
Qed.

Lemma dispatch_raised (address abi : pystr) (err : exn) (l l' : log) :
  execute_call E (req address abi) l = (Raised err, l') ->
  async_def (dispatch E address abi type method params network signature
               max_fee query_flag watch_mode) l
  = (Returned VNone,
     l' ++ [(ERROR,
             if contains (lit "max_fee must be bigger than 0.") (exn_str err)
             then max_fee_help else exn_str err)]).
Proof.
  intros e; run_monad; rewrite e.
  destruct (contains _ (exn_str err)); reflexivity.
Qed.

Lemma dispatch_returned (address abi output : pystr) (l l' : log) :
  execute_call E (req address abi) l = (Returned output, l') ->
  async_def (dispatch E address abi type method params network signature
               max_fee query_flag watch_mode) l
  = async_def (translate E type network query_flag watch_mode
                 (Returned output)) l'.
Proof.
  intros e; unfold dispatch, async_def, bind, try; rewrite e; reflexivity.
Qed.

(** C1: when [execute_call] fails, [call_or_invoke] writes exactly one
    record to the log, the guided help if the message of the failure
    contains the max-fee text and the raw error otherwise, and returns
    [None]; the failure never reaches the caller. *)
Theorem executor_failure_is_translated (contract : contract_ref)
  (address abi : pystr) (err : exn) (l l' : log) :
  resolve E contract network = Returned (address, abi) ->
  execute_call E (req address abi) l = (Raised err, l') ->
  (Substring (lit "max_fee must be bigger than 0.") (exn_str err) ->
   call_or_invoke E contract type method params network signature max_fee
     query_flag watch_mode l
   = (Returned VNone, l' ++ [(ERROR, max_fee_help)])) /\
  (~ Substring (lit "max_fee must be bigger than 0.") (exn_str err) ->
   call_or_invoke E contract type method params network signature max_fee
     query_flag watch_mode l
   = (Returned VNone, l' ++ [(ERROR, exn_str err)])) /\
  (exists record,
     call_or_invoke E contract type method params network signature max_fee
       query_flag watch_mode l
     = (Returned VNone, l' ++ [record])).
Proof.
  intros r e; rewrite (call_or_invoke_resolved _ r), (dispatch_raised _ _ _ e).
  pose proof (contains_spec (lit "max_fee must be bigger than 0.")
                (exn_str err)) as c.
  destruct (contains _ (exn_str err)); split; [| split | | split].
  - reflexivity.
  - intros n; exfalso; apply n, c; reflexivity.
  - eexists; reflexivity.
  - intros s; apply c in s; discriminate.
  - reflexivity.
  - eexists; reflexivity.
Qed.

Lemma async_def_returned (A : Type) (body : M A) (l l' : log) (a : A) :
  async_def body l = (Returned a, l') -> body l = (Returned a, l').
Proof.
  unfold async_def; destruct (body l) as [[a' | [[] msg]] l0]; intros e;
    try exact e; discriminate.
Qed.

Lemma watch_taken_iff (output : pystr) :
  watch_taken type output query_flag watch_mode = true <->
  type <> lit "call" /\ output <> [] /\
  truthy_opt query_flag = false /\ truthy_opt watch_mode = true.
Proof.
  unfold watch_taken; rewrite !andb_true_iff, !negb_true_iff.
  pose proof (str_eqb_eq type (lit "call")) as t.
  destruct (str_eqb type (lit "call")); destruct output; simpl;
    intuition (discriminate || congruence).
Qed.

(** When the conditions of the watch hold, the result comes from
    [status], called on what [normalize_number] makes of the extracted
    hash. *)
Lemma translate_watch (output : pystr) (l : log) :
  watch_taken type output query_flag watch_mode = true ->
  translate E type network query_flag watch_mode (Returned output) l
  = (n <- normalize_number E (_get_transaction_hash output) ;;
     st <- status E n network watch_mode ;;
     ret (VReport st)) (l ++ [(INFO, output)]).
Proof.
  unfold watch_taken; rewrite <- andb_assoc; intros w.
  apply andb_true_iff in w; destruct w as [w1 w2].
  unfold translate; rewrite w1; unfold bind at 1, logging_info.
  rewrite w2; reflexivity.
Qed.

(** When they do not hold, the raw output is returned. *)
Lemma translate_no_watch (output : pystr) (l : log) :
  watch_taken type output query_flag watch_mode = false ->
  exists l',
    translate E type network query_flag watch_mode (Returned output) l
    = (Returned (VStr output), l').
Proof.
  unfold watch_taken; rewrite <- andb_assoc; intros w.
  unfold translate, bind, logging_info, ret.
  destruct (negb (str_eqb type (lit "call")) && truthy output);
    [|eexists; reflexivity].
  simpl in w; rewrite w; eexists; reflexivity.
Qed.

(** The part of C2 that holds: the watch is taken exactly under its four
    conditions; a hash that is found goes through [normalize_number] to
    [status], whose report is the result; and when the watch is not taken
    the raw output is returned. *)
Lemma watch_with_hash (contract : contract_ref) (address abi output h : pystr)
  (l l' : log) :
  resolve E contract network = Returned (address, abi) ->
  execute_call E (req address abi) l = (Returned output, l') ->
  (watch_taken type output query_flag watch_mode = true ->
   _get_transaction_hash output = Some h ->
   call_or_invoke E contract type method params network signature max_fee
     query_flag watch_mode l
   = async_def (n <- normalize_number E (Some h) ;;
                st <- status E n network watch_mode ;;
                ret (VReport st)) (l' ++ [(INFO, output)])) /\
  (watch_taken type output query_flag watch_mode = false ->
   exists l'',
     call_or_invoke E contract type method params network signature max_fee
       query_flag watch_mode l
     = (Returned (VStr output), l'')).
Proof.
  intros r e; rewrite (call_or_invoke_resolved _ r), (dispatch_returned _ _ _ e).
  split.
  - intros w g; unfold async_def; rewrite (translate_watch _ _ w), g.
    reflexivity.
  - intros w; destruct (translate_no_watch output l' w) as [l'' t].
    exists l''; unfold async_def; rewrite t; reflexivity.
Qed.

(** C2, where the code departs from it: the conditions of the watch hold
    and the output carries no hash.  [call_or_invoke] does not fall back
    to the raw output: it hands [None] to [normalize_number] and the
    result to [status], so whatever it returns is a report of [status]
    and never the output. *)
Theorem watch_without_hash (contract : contract_ref)
  (address abi output : pystr) (l l' : log) :
  resolve E contract network = Returned (address, abi) ->
  execute_call E (req address abi) l = (Returned output, l') ->
  watch_taken type output query_flag watch_mode = true ->
  _get_transaction_hash output = None ->
  call_or_invoke E contract type method params network signature max_fee
    query_flag watch_mode l
  = async_def (n <- normalize_number E None ;;
               st <- status E n network watch_mode ;;
               ret (VReport st)) (l' ++ [(INFO, output)]) /\
  forall v l'',
    call_or_invoke E contract type method params network signature max_fee
      query_flag watch_mode l = (Returned v, l'') ->
    v <> VStr output.
Proof.
  intros r e w g.
  assert (call_or_invoke E contract type method params network signature
            max_fee query_flag watch_mode l
          = async_def (n <- normalize_number E None ;;
                       st <- status E n network watch_mode ;;
                       ret (VReport st)) (l' ++ [(INFO, output)])) as eq.
  { rewrite (call_or_invoke_resolved _ r), (dispatch_returned _ _ _ e).
    unfold async_def; rewrite (translate_watch _ _ w), g; reflexivity. }
  split; [exact eq|].
  intros v l'' c; rewrite eq in c; apply async_def_returned in c.
  unfold bind, ret in c.
  destruct (normalize_number E None _) as [[n | e1] l1]; [|discriminate].
  destruct (status E n network watch_mode l1) as [[st | e2] l2];
    [|discriminate].
  injection c as <- _; discriminate.
Qed.

End DispatcherFacts.

Lemma executor_failure_is_translated_witness :
  call_or_invoke (scripted a_deployment (Raised fee_error))
    (Identifier (lit "contract")) (lit "invoke") (lit "increase_balance")
    [lit "1"] (lit "goerli") None None None None []
  = (Returned VNone, [(ERROR, max_fee_help)]).
Proof.
  refine (proj1 (@executor_failure_is_translated Z
                   (scripted a_deployment (Raised fee_error))
                   (lit "invoke") (lit "increase_balance") [lit "1"]
                   (lit "goerli") None None None None
                   (Identifier (lit "contract")) (lit "0x1")
                   (lit "artifacts/abis/contract.json") fee_error [] []
                   eq_refl eq_refl) _).
  apply contains_spec; reflexivity.
Defined.

Lemma watch_without_hash_witness :
  call_or_invoke (scripted a_deployment (Returned sent_without_hash))
    (Identifier (lit "contract")) (lit "invoke") (lit "increase_balance")
    [lit "1"] (lit "goerli") None (Some (lit "1")) None (Some (lit "track"))
    []
  = (Returned (VReport 0%Z), [(INFO, sent_without_hash)]).
Proof.
  exact (proj1 (@watch_without_hash Z
                  (scripted a_deployment (Returned sent_without_hash))
                  (lit "invoke") (lit "increase_balance") [lit "1"]
                  (lit "goerli") None (Some (lit "1")) None
                  (Some (lit "track")) (Identifier (lit "contract"))
                  (lit "0x1") (lit "artifacts/abis/contract.json")
                  sent_without_hash [] [] eq_refl eq_refl eq_refl eq_refl)).
Defined.

(** ** The [invoke] and [call] commands *)

Section CommandFacts.

Variable report : Type.
Variable E : Env report.

Variables (contract_name method : pystr) (params : list pystr).
Variable network : pystr.

Lemma resolve_first (address abi : pystr) (others : list (pystr * pystr)) :
  deployments_load E contract_name network = (address, abi) :: others ->
  resolve E (Identifier contract_name) network = Returned (address, abi).
Proof. intros e; unfold resolve; rewrite e; reflexivity. Qed.

(** Without a match, [next] raises inside the coroutine and nothing else
    runs. *)
Lemma call_or_invoke_unresolved (type : pystr)
  (signature : option (list pystr))
  (max_fee query_flag watch_mode : option pystr) (l : log) :
  deployments_load E contract_name network = [] ->
  call_or_invoke E (Identifier contract_name) type method params network
    signature max_fee query_flag watch_mode l
  = (Raised (Exn RuntimeError (lit "coroutine raised StopIteration")), l).
Proof.
  intros e; unfold call_or_invoke, async_def, bind, lift, resolve.
  rewrite e; reflexivity.
Qed.

(** [call] logs what the dispatcher returns and ends normally, whatever
    [execute_call] did. *)
Lemma call_completes (address abi : pystr) (others : list (pystr * pystr))
  (l : log) :
  deployments_load E contract_name network = (address, abi) :: others ->
  exists l', cli.call E contract_name method params network l
             = (Returned tt, l').
Proof.
  intros d; unfold cli.call.
  unfold async_def at 1; unfold bind at 1.
  erewrite call_or_invoke_resolved by exact (resolve_first d).
  destruct (execute_call E
              (request (lit "call") network params None None None address abi
                 method) l) as [[output | err] l1] eqn:e.
  - erewrite dispatch_returned by exact e.
    eexists; reflexivity.
  - erewrite dispatch_raised by exact e.
    eexists; reflexivity.
Qed.

(** After a failure of [execute_call], [call] ends normally with the
    failure and then the returned [None] in the log. *)
Lemma call_after_executor_failure (address abi : pystr)
  (others : list (pystr * pystr)) (err : exn) (l l' : log) :
  deployments_load E contract_name network = (address, abi) :: others ->
  execute_call E
    (request (lit "call") network params None None None address abi method) l
  = (Raised err, l') ->
  cli.call E contract_name method params network l
  = (Returned tt,
     (l' ++ [(ERROR,
              if contains (lit "max_fee must be bigger than 0.") (exn_str err)
              then max_fee_help else exn_str err)])
     ++ [(INFO, lit "None")]).
Proof.
  intros d e; unfold cli.call.
  unfold async_def at 1; unfold bind at 1.
  erewrite call_or_invoke_resolved by exact (resolve_first d).
  erewrite dispatch_raised by exact e.
  reflexivity.
Qed.

(** C3, where the code departs from it: [execute_call] fails after a
    successful resolution.  The dispatcher logs the failure and returns
    [None]; the assignment [address, tx_hash = ...] of [invoke] then
    raises a [TypeError], which reaches the outer CLI. *)
Theorem invoke_raises_after_executor_failure (max_fee : option pystr) (address abi : pystr)
  (others : list (pystr * pystr)) (err : exn) (l l' : log) :
  deployments_load E contract_name network = (address, abi) :: others ->
  execute_call E
    (request (lit "invoke") network params None max_fee None address abi
       method) l = (Raised err, l') ->
  cli.invoke E contract_name method params network max_fee l
  = (Raised (Exn TypeError
               (lit "cannot unpack non-iterable NoneType object")),
     l' ++ [(ERROR,
             if contains (lit "max_fee must be bigger than 0.") (exn_str err)
             then max_fee_help else exn_str err)]).
Proof.
  intros d e; unfold cli.invoke.
  unfold async_def at 1; unfold bind at 1.
  erewrite call_or_invoke_resolved by exact (resolve_first d).
  erewrite dispatch_raised by exact e.
  reflexivity.
Qed.

(** The same assignment raises on every output of a successful
    [execute_call] that is not exactly two characters long. *)
Lemma invoke_unpacks_output (max_fee : option pystr) (address abi : pystr)
  (others : list (pystr * pystr)) (output : pystr) (l l' : log) :
  deployments_load E contract_name network = (address, abi) :: others ->
  execute_call E
    (request (lit "invoke") network params None max_fee None address abi
       method) l = (Returned output, l') ->
  length output <> 2%nat ->
  exists msg l'',
    cli.invoke E contract_name method params network max_fee l
    = (Raised (Exn ValueError msg), l'').
Proof.
  intros d e n; unfold cli.invoke.
  unfold async_def at 1; unfold bind at 1.
  erewrite call_or_invoke_resolved by exact (resolve_first d).
  erewrite dispatch_returned by exact e.
  destruct output as [|a [|b [|c output]]]; try (exfalso; apply n; reflexivity);
    do 2 eexists; reflexivity.
Qed.

End CommandFacts.

Lemma invoke_raises_after_executor_failure_witness :
  cli.invoke (scripted a_deployment (Raised other_error)) (lit "contract")
    (lit "increase_balance") [lit "1"] (lit "goerli") None []
  = (Raised (Exn TypeError
               (lit "cannot unpack non-iterable NoneType object")),
     [(ERROR, lit "Entry point not found.")]).
Proof.
  exact (@invoke_raises_after_executor_failure Z
           (scripted a_deployment (Raised other_error)) (lit "contract")
           (lit "increase_balance") [lit "1"] (lit "goerli") None
           (lit "0x1") (lit "artifacts/abis/contract.json") [] other_error
           [] [] eq_refl eq_refl).
Defined.

(** C4: an [Account] gives its address and its abi to [execute_call]
    directly: they are the [address] and [abi] arguments of the call; any
    other reference is looked up in the deployments and the address and
    abi of the first match are those arguments; without a match the
    exception of the lookup leaves [call_or_invoke] before the [try]
    statement is reached, with nothing logged, and ends the [invoke] and
    [call] commands. *)
Theorem resolution_of_the_target (report : Type) (E : Env report)
  (type method : pystr) (params : list pystr) (network : pystr)
  (signature : option (list pystr))
  (max_fee query_flag watch_mode : option pystr) :
  (forall a : account.Account,
     call_or_invoke E (AccountRef a) type method params network signature
       max_fee query_flag watch_mode
     = async_def
         (r <- try (execute_call E
                      {| arg_type := type; arg_network := network;
                         arg_inputs := params; arg_signature := signature;
                         arg_max_fee := max_fee;
                         arg_query_flag := query_flag;
                         arg_address := account.address a;
                         arg_abi := account.abi_path a;
                         arg_method := method |}) ;;
          translate E type network query_flag watch_mode r)) /\
  (forall name address abi others,
     deployments_load E name network = (address, abi) :: others ->
     call_or_invoke E (Identifier name) type method params network signature
       max_fee query_flag watch_mode
     = async_def
         (r <- try (execute_call E
                      {| arg_type := type; arg_network := network;
                         arg_inputs := params; arg_signature := signature;
                         arg_max_fee := max_fee;
                         arg_query_flag := query_flag;
                         arg_address := address; arg_abi := abi;
                         arg_method := method |}) ;;
          translate E type network query_flag watch_mode r)) /\
  (forall name l,
     deployments_load E name network = [] ->
     call_or_invoke E (Identifier name) type method params network signature
       max_fee query_flag watch_mode l
     = (Raised (Exn RuntimeError (lit "coroutine raised StopIteration")), l)
     /\ cli.invoke E name method params network max_fee l
        = (Raised (Exn RuntimeError (lit "coroutine raised StopIteration")),
           l)
     /\ cli.call E name method params network l
        = (Raised (Exn RuntimeError (lit "coroutine raised StopIteration")),
           l)).
Proof.
  split; [|split].
  - intros a; reflexivity.
  - intros name address abi others d.
    erewrite call_or_invoke_resolved by (eapply resolve_first; exact d).
    reflexivity.
  - intros name l d; split; [|split].
    + apply call_or_invoke_unresolved; exact d.
    + unfold cli.invoke, async_def at 1; unfold bind at 1.
      rewrite call_or_invoke_unresolved by exact d; reflexivity.
    + unfold cli.call, async_def at 1; unfold bind at 1.
      rewrite call_or_invoke_unresolved by exact d; reflexivity.
Qed.

(** With collaborators whose [execute_call] answers with the address and
    the abi it was given: an [Account] is called at its own address and
    abi, an identifier at those of the first of its two deployments, and
    an identifier without deployments ends in the exception. *)
Lemma resolution_of_the_target_witness :
  call_or_invoke echo_target (AccountRef an_account) (lit "call")
    (lit "get_balance") [] (lit "goerli") None None None None []
  = (Returned (VStr (lit "0xacc Account.json")), []) /\
  call_or_invoke echo_target (Identifier (lit "contract")) (lit "call")
    (lit "get_balance") [] (lit "goerli") None None None None []
  = (Returned (VStr (lit "0x1 first.json")), []) /\
  call_or_invoke (scripted [] (Returned sent_without_hash))
    (Identifier (lit "missing")) (lit "invoke") (lit "increase_balance")
    [lit "1"] (lit "goerli") None None None None []
  = (Raised (Exn RuntimeError (lit "coroutine raised StopIteration")), []).
Proof.
  split; [|split].
  - rewrite (proj1 (@resolution_of_the_target Z echo_target (lit "call")
                      (lit "get_balance") [] (lit "goerli") None None None
                      None) an_account).
    reflexivity.
  - rewrite (proj1 (proj2 (@resolution_of_the_target Z echo_target
                             (lit "call") (lit "get_balance") []
                             (lit "goerli") None None None None))
               (lit "contract") (lit "0x1") (lit "first.json")
               [(lit "0x2", lit "second.json")] eq_refl).
    reflexivity.
  - exact (proj1 (proj2 (proj2 (@resolution_of_the_target Z
             (scripted [] (Returned sent_without_hash)) (lit "invoke")
             (lit "increase_balance") [lit "1"] (lit "goerli") None None
             None None)) (lit "missing") [] eq_refl)).
Defined.

(** ** [nile.common] *)

Section ClientFacts.

Variable tx : Type.
Variable add_transaction : tx -> option pystr -> M common.response.
Variable call_contract : tx -> M common.response.

Lemma pyobj_eqb_str_eq (o : common.pyobj) (s : pystr) :
  common.pyobj_eqb_str o s = true <-> o = common.PStr s.
Proof.
  destruct o as [t | z | items]; simpl;
    try (split; [discriminate | discriminate]).
  rewrite str_eqb_eq; split; [intros -> | intros [= ->]]; reflexivity.
Qed.

Lemma success_code_spec (r : common.response) :
  common.success_code r = true <->
  common.lookup (lit "code") r = Some common.TRANSACTION_RECEIVED.
Proof.
  unfold common.success_code, common.TRANSACTION_RECEIVED.
  destruct (common.lookup (lit "code") r) as [c|].
  - rewrite pyobj_eqb_str_eq; split; [intros -> | intros [= ->]]; reflexivity.
  - split; discriminate.
Qed.

Lemma failure_code_spec (r : common.response) :
  common.failure_code r = false <->
  (forall c, common.lookup (lit "code") r = Some c ->
             c = common.TRANSACTION_RECEIVED).
Proof.
  unfold common.failure_code, common.TRANSACTION_RECEIVED.
  destruct (common.lookup (lit "code") r) as [c|].
  - rewrite negb_false_iff, pyobj_eqb_str_eq; split.
    + intros -> c' [= <-]; reflexivity.
    + intros h; apply h; reflexivity.
  - split; [intros _ c; discriminate | reflexivity].
Qed.

(** C5: a response whose code is the success code is returned unchanged;
    any other response makes [get_gateway_response] fail, and for the
    response [{"code": "test"}] the message of the failure contains
    "Transaction failed because:", a newline, the raw body
    [{'code': 'test'}] and a period. *)
Theorem gateway_response_classified (network : pystr) (t : tx)
  (token : option pystr) (r : common.response) (l l' : log) :
  add_transaction t token l = (Returned r, l') ->
  (common.lookup (lit "code") r = Some common.TRANSACTION_RECEIVED ->
   common.get_gateway_response add_transaction network t token l
   = (Returned r, l')) /\
  (common.lookup (lit "code") r <> Some common.TRANSACTION_RECEIVED ->
   common.get_gateway_response add_transaction network t token l
   = (Raised (common.rejected r), l')) /\
  (r = common.TX_FAILED ->
   exists err,
     common.get_gateway_response add_transaction network t token l
     = (Raised err, l') /\
     Substring
       (lit "Transaction failed because:" ++ [nl] ++ lit "{'code': 'test'}.")
       (exn_str err)).
Proof.
  intros e; unfold common.get_gateway_response, bind; rewrite e.
  pose proof (success_code_spec r) as c.
  split; [|split].
  - intros h; apply c in h; rewrite h; reflexivity.
  - intros h; destruct (common.success_code r); [|reflexivity].
    exfalso; apply h, c; reflexivity.
  - intros ->; eexists; split; [reflexivity|].
    exists [], []; reflexivity.
Qed.

Lemma failure_code_true (r : common.response) (c : common.pyobj) :
  common.lookup (lit "code") r = Some c ->
  c <> common.TRANSACTION_RECEIVED ->
  common.failure_code r = true.
Proof.
  intros h n; unfold common.failure_code; rewrite h.
  destruct (common.pyobj_eqb_str c (lit "TRANSACTION_RECEIVED")) eqn:e;
    [|reflexivity].
  apply pyobj_eqb_str_eq in e; contradiction.
Qed.

(** C6, amended: when the response of the feeder carries a result field
    and no code other than the success code, [get_feeder_response]
    returns that field and not the whole response; so it does for a
    response that is the result field alone; a response whose code is
    not the success code fails as a gateway response does, whether it
    carries a result or not. *)
Theorem feeder_response_result (network : pystr) (t : tx)
  (r : common.response) (X : common.pyobj) (l l' : log) :
  call_contract t l = (Returned r, l') ->
  (common.lookup (lit "result") r = Some X ->
   (forall c, common.lookup (lit "code") r = Some c ->
              c = common.TRANSACTION_RECEIVED) ->
   common.get_feeder_response call_contract network t l
   = (Returned X, l')) /\
  (r = [(lit "result", X)] ->
   common.get_feeder_response call_contract network t l
   = (Returned X, l')) /\
  (forall c, common.lookup (lit "code") r = Some c ->
             c <> common.TRANSACTION_RECEIVED ->
   common.get_feeder_response call_contract network t l
   = (Raised (common.rejected r), l')).
Proof.
  intros e; unfold common.get_feeder_response, bind; rewrite e.
  split; [|split].
  - intros h c; apply failure_code_spec in c; rewrite c, h; reflexivity.
  - intros ->; reflexivity.
  - intros c h n; rewrite (failure_code_true _ h n); reflexivity.
Qed.

End ClientFacts.

Lemma gateway_response_classified_witness :
  common.get_gateway_response
    (fun (_ : unit) (_ : option pystr) => ret common.TX_RECEIVED)
    (lit "goerli") tt None []
  = (Returned common.TX_RECEIVED, []).
Proof.
  exact (proj1 (@gateway_response_classified unit
                  (fun _ _ => ret common.TX_RECEIVED) (lit "goerli") tt None
                  common.TX_RECEIVED [] [] eq_refl) eq_refl).
Defined.

Lemma feeder_response_result_witness :
  common.get_feeder_response (fun _ : unit => ret common.TX_RECEIVED)
    (lit "goerli") tt []
  = (Returned (common.PStr (lit "test")), []).
Proof.
  refine (proj1 (@feeder_response_result unit
                   (fun _ => ret common.TX_RECEIVED) (lit "goerli") tt
                   common.TX_RECEIVED (common.PStr (lit "test")) [] []
                   eq_refl) eq_refl _).
  intros c [= <-]; reflexivity.
Defined.

(** C6, as stated, fails on the modelled helper: the response carries the
    result 7 and the code "test", and [get_feeder_response] raises
    instead of returning 7. *)
Lemma feeder_response_with_failure_code :
  common.lookup (lit "result") common.TX_FAILED_WITH_RESULT
  = Some (common.PInt 7) /\
  common.get_feeder_response
    (fun _ : unit => ret common.TX_FAILED_WITH_RESULT) (lit "goerli") tt []
  = (Raised (common.rejected common.TX_FAILED_WITH_RESULT), []).
Proof. split; reflexivity. Qed.

(** The failing response of the tests. *)
Example gateway_response_failed :
  common.get_gateway_response
    (fun (_ : unit) (_ : option pystr) => ret common.TX_FAILED)
    (lit "goerli") tt None []
  = (Raised (Exn TransactionRejected
               (lit "Transaction failed because:" ++ [nl]
                ++ lit "{'code': 'test'}.")), []).
Proof. reflexivity. Qed.

(** Induction on a nested value, with the property available for every
    item of a sequence. *)
Lemma pyobj_nested_ind (P : common.pyobj -> Prop) :
  (forall s, P (common.PStr s)) ->
  (forall z, P (common.PInt z)) ->
  (forall items, Forall P items -> P (common.PList items)) ->
  forall x, P x.
Proof.
  intros hs hz hl; fix IH 1; intros [s | z | items].
  - apply hs.
  - apply hz.
  - apply hl; induction items as [|x items IHitems]; constructor.
    + apply IH.
    + exact IHitems.
Qed.

Lemma stringify_nesting (x : common.pyobj) :
  common.nesting_of (common.stringify x) = common.nesting_of x.
Proof.
  induction x as [s | z | items IH] using pyobj_nested_ind;
    try reflexivity.
  cbn [common.stringify common.nesting_of]; f_equal.
  rewrite map_map; induction IH as [|x items hx _ IH]; simpl;
    [reflexivity | rewrite hx, IH; reflexivity].
Qed.

Lemma stringify_leaves (x : common.pyobj) :
  common.leaves (common.stringify x)
  = map (fun leaf => common.PStr (common.str_scalar leaf)) (common.leaves x).
Proof.
  induction x as [s | z | items IH] using pyobj_nested_ind;
    try reflexivity.
  cbn [common.stringify common.leaves].
  induction IH as [|x items hx _ IH]; simpl; [reflexivity|].
  rewrite hx, IH, map_app; reflexivity.
Qed.

(** C7: [stringify] keeps the nesting of a sequence and turns every
    scalar leaf into its string form, an integer into its decimal
    notation; on the four lists of the tests it gives the expected
    values. *)
Theorem stringify_spec :
  (forall x, common.nesting_of (common.stringify x) = common.nesting_of x) /\
  (forall x,
     common.leaves (common.stringify x)
     = map (fun leaf => common.PStr (common.str_scalar leaf))
         (common.leaves x)) /\
  (forall z, common.stringify (common.PInt z) = common.PStr (str_Z z)) /\
  common.stringify (common.PList []) = common.PList [] /\
  common.stringify (common.PList [common.LIST1])
  = common.PList [common.PList (common.strs ["1"; "2"; "3"]%string)] /\
  common.stringify (common.PList [common.LIST2])
  = common.PList
      [common.PList
         (common.strs ["1"; "2"; "3"]%string
          ++ [common.PList (common.strs ["4"; "5"; "6"]%string)])] /\
  common.stringify (common.PList [common.LIST3])
  = common.PList
      [common.PList
         (common.strs ["1"; "2"; "3"]%string
          ++ [common.PList
                (common.strs ["4"; "5"; "6"]%string
                 ++ [common.PList (common.strs ["7"; "8"; "9"]%string)])])].
Proof.
  split; [exact stringify_nesting|].
  split; [exact stringify_leaves|].
  repeat split; reflexivity.
Qed.

(** * Further properties of the code *)

(** ** [_validate_network] *)

Lemma self_substring (s : pystr) : Substring s s.
Proof. exists [], []; rewrite app_nil_r; reflexivity. Qed.

Lemma validate_network_inversion (value r : pystr) :
  cli._validate_network value = Returned r ->
  r = lit "goerli" \/ r = lit "localhost" \/
  (r = lit "mainnet" /\ value = lit "mainnet").
Proof.
  unfold cli._validate_network.
  destruct (contains (lit "goerli") value || contains (lit "testnet") value);
    [intros [= <-]; auto|].
  destruct (contains (lit "localhost") value
            || contains (lit "127.0.0.1") value) eqn:lo;
    [intros [= <-]; auto|].
  destruct (tuple_mem value cli.NETWORKS) eqn:t; [|discriminate].
  intros [= <-]; apply tuple_mem_spec in t.
  destruct t as [<- | [<- | [<- | []]]]; auto; discriminate.
Qed.

(** Whatever [_validate_network] returns is one of [NETWORKS]. *)
Theorem validate_network_returns_known (value r : pystr) :
  cli._validate_network value = Returned r -> In r cli.NETWORKS.
Proof.
  intros e; apply validate_network_inversion in e.
  destruct e as [-> | [-> | [-> _]]]; simpl; auto.
Qed.

Lemma validate_network_returns_known_witness :
  In (lit "goerli") cli.NETWORKS.
Proof.
  exact (@validate_network_returns_known (lit "alpha-goerli2")
           (lit "goerli") eq_refl).
Defined.

(** A network that [_validate_network] returned is accepted unchanged
    when it is validated again. *)
Theorem validate_network_idempotent (value r : pystr) :
  cli._validate_network value = Returned r ->
  cli._validate_network r = Returned r.
Proof.
  intros e; apply validate_network_inversion in e.
  destruct e as [-> | [-> | [-> _]]]; reflexivity.
Qed.

Lemma validate_network_idempotent_witness :
  cli._validate_network (lit "localhost") = Returned (lit "localhost").
Proof.
  exact (@validate_network_idempotent (lit "http://127.0.0.1:5050")
           (lit "localhost") eq_refl).
Defined.

(** [_validate_network] rejects a value exactly when it contains none of
    "goerli", "testnet", "localhost" and "127.0.0.1" and is not the
    string "mainnet" itself: a name that only contains "mainnet" is
    rejected. *)
Theorem validate_network_rejects (value : pystr) :
  (exists err, cli._validate_network value = Raised err) <->
  ~ cli.goerli_like value /\ ~ cli.localhost_like value /\
  value <> lit "mainnet".
Proof.
  pose proof (goerli_like_spec value) as G.
  pose proof (localhost_like_spec value) as L.
  pose proof (tuple_mem_spec value cli.NETWORKS) as T.
  unfold cli._validate_network.
  destruct (contains (lit "goerli") value || contains (lit "testnet") value).
  { split; [intros [err [=]] | intros [n _]; exfalso; apply n, G; reflexivity]. }
  assert (~ cli.goerli_like value) as ng
    by (intros g; apply G in g; discriminate).
  destruct (contains (lit "localhost") value
            || contains (lit "127.0.0.1") value).
  { split; [intros [err [=]]
           | intros [_ [n _]]; exfalso; apply n, L; reflexivity]. }
  assert (~ cli.localhost_like value) as nlo
    by (intros g; apply L in g; discriminate).
  destruct (tuple_mem value cli.NETWORKS).
  - split; [intros [err [=]]|]; intros [_ [_ n]].
    destruct T as [T _]; destruct (T eq_refl) as [<- | [<- | [<- | []]]].
    + exfalso; apply nlo; left; apply self_substring.
    + exfalso; apply ng; left; apply self_substring.
    + exfalso; apply n; reflexivity.
  - split; [intros _ | intros _; eexists; reflexivity].
    split; [exact ng|]; split; [exact nlo|].
    intros ->; destruct T as [_ T]; discriminate T.
    right; right; left; reflexivity.
Qed.

Lemma validate_network_rejects_witness :
  exists err, cli._validate_network (lit "mainnet2") = Raised err.
Proof.
  apply (proj2 (validate_network_rejects (lit "mainnet2"))).
  split; [|split].
  - intros [h | h]; revert h; apply contains_false; reflexivity.
  - intros [h | h]; revert h; apply contains_false; reflexivity.
  - discriminate.
Defined.

(** ** [_get_transaction_hash] *)

Lemma app_same_length (A : Type) (p q x y : list A) :
  p ++ x = q ++ y -> length p = length q -> p = q /\ x = y.
Proof.
  revert q; induction p as [|a p IH]; intros [|b q]; simpl; intros e n;
    try discriminate; [split; [reflexivity | exact e]|].
  injection e as -> e; injection n as n.
  destruct (IH q e n) as [-> ->]; split; reflexivity.
Qed.

Section SearchComplete.

Variable cls : N -> bool.

Lemma greedy_unique (n : nat) (ds post : pystr) :
  Forall (fun c => cls c = true) ds ->
  (length ds <= n)%nat ->
  (length ds = n \/ post = [] \/
   exists c post', post = c :: post' /\ cls c = false) ->
  greedy cls n (ds ++ post) = ds.
Proof.
  revert ds; induction n as [|n IH]; intros ds f b stop.
  - destruct ds; [reflexivity | simpl in b; lia].
  - destruct ds as [|d ds].
    + destruct stop as [e | [-> | [c [post' [-> e]]]]];
        [discriminate | reflexivity | simpl; rewrite e; reflexivity].
    + inversion f as [|d' ds' hd hds]; subst.
      cbn [app greedy]; rewrite hd; f_equal; apply IH.
      * exact hds.
      * simpl in b; lia.
      * destruct stop as [e | stop]; [left; simpl in e; lia | right; exact stop].
Qed.

Lemma occurrence_occurs (s pre ds post : pystr) :
  occurrence cls s pre ds post -> occurs_at cls s pre.
Proof.
  intros [e [[b _] [f _]]]; destruct ds as [|d ds]; [simpl in b; lia|].
  inversion f; subst; exists d, (ds ++ post); split; [reflexivity | assumption].
Qed.

(** The leftmost occurrence decides what the search returns. *)
Lemma re_search_complete (s pre ds post : pystr) :
  occurrence cls s pre ds post ->
  (forall pre', occurs_at cls s pre' -> (length pre <= length pre')%nat) ->
  re_search cls s = Some (lit "0x" ++ ds).
Proof.
  intros o least; pose proof (re_search_spec cls s) as spec.
  destruct (re_search cls s) as [h|].
  - destruct spec as [pre0 [ds0 [post0 [-> [o0 least0]]]]].
    assert (length pre = length pre0) as n.
    { apply Nat.le_antisymm;
        [apply least, (occurrence_occurs o0)
        | apply least0, (occurrence_occurs o)]. }
    destruct o as [e [b [f stop]]]; destruct o0 as [e0 [b0 [f0 stop0]]].
    rewrite e0 in e; symmetry in e.
    destruct (app_same_length _ _ _ _ e n) as [_ e'].
    apply app_inv_head in e'.
    assert (greedy cls 64 (ds ++ post) = ds) as g
      by (apply greedy_unique; [exact f | lia | exact stop]).
    assert (greedy cls 64 (ds0 ++ post0) = ds0) as g0
      by (apply greedy_unique; [exact f0 | lia | exact stop0]).
    rewrite e', g0 in g; rewrite g; reflexivity.
  - exfalso; exact (spec pre (occurrence_occurs o)).
Qed.

End SearchComplete.

Section SearchAgree.

Variables cls1 cls2 : N -> bool.




End SearchAgree.




(** An occurrence of the pattern that no other one precedes is what
    [_get_transaction_hash] returns: with the characterisation of its
    results, the leftmost occurrence and its longest run determine the
    result. *)
Theorem get_transaction_hash_complete (string pre ds post : pystr) :
  occurrence hash_char string pre ds post ->
  (forall pre', occurs_at hash_char string pre' ->
                (length pre <= length pre')%nat) ->
  _get_transaction_hash string = Some (lit "0x" ++ ds).
Proof. apply re_search_complete. Qed.

Lemma get_transaction_hash_complete_witness :
  _get_transaction_hash
    (lit "Transaction hash: 0x1f" ++ [nl] ++ lit "Transaction hash: 0x2a")
  = Some (lit "0x1f").
Proof.
  apply (@get_transaction_hash_complete _ [] (lit "1f")
           ([nl] ++ lit "Transaction hash: 0x2a")).
  - split; [reflexivity|]; split; [vm_compute; lia|].
    split; [repeat constructor|].
    right; right; exists nl, (lit "Transaction hash: 0x2a").
    split; reflexivity.
  - intros pre' _; apply Nat.le_0_l.
Defined.

(** The line that reports a hash reads back: a string that starts with
    "Transaction hash: 0x" and a run of characters of the class, followed
    by the end of the string or by any character outside the class (a
    newline, say), gives 0x and the run, cut to its first 64 characters
    when it is longer. *)
Theorem get_transaction_hash_of_line (ds post : pystr) :
  ds <> [] ->
  Forall (fun c => hash_char c = true) ds ->
  (post = [] \/ exists c post', post = c :: post' /\ hash_char c = false) ->
  _get_transaction_hash (lit "Transaction hash: 0x" ++ ds ++ post)
  = Some (lit "0x" ++ firstn 64 ds).
Proof.
  intros ne f stop.
  apply re_search_complete with (pre := []) (post := skipn 64 ds ++ post).
  - split; [|split; [|split]].
    + rewrite app_nil_l, (app_assoc (firstn 64 ds)), firstn_skipn.
      reflexivity.
    + rewrite length_firstn; destruct ds; [congruence | cbn [length]; lia].
    + rewrite <- (firstn_skipn 64 ds) in f; apply Forall_app in f; tauto.
    + destruct (Nat.le_gt_cases 64 (length ds)) as [long | short].
      * left; apply firstn_length_le; exact long.
      * right; rewrite skipn_all2 by lia; exact stop.
  - intros; simpl; lia.
Qed.

Lemma get_transaction_hash_of_line_witness :
  _get_transaction_hash
    (lit "Transaction hash: 0x" ++ lit "1f" ++ nl :: lit "done")
  = Some (lit "0x" ++ firstn 64 (lit "1f")).
Proof.
  apply get_transaction_hash_of_line.
  - discriminate.
  - repeat constructor.
  - right; exists nl, (lit "done"); split; reflexivity.
Defined.

(** What [_get_transaction_hash] returns stands in the input right after
    "Transaction hash: " and has 3 to 66 characters; an input of fewer
    than 21 characters, the empty one among them, gives [None]. *)
Theorem get_transaction_hash_bounds (string : pystr) :
  (forall h, _get_transaction_hash string = Some h ->
     Substring (lit "Transaction hash: " ++ h) string /\
     (3 <= length h <= 66)%nat) /\
  ((length string < 21)%nat -> _get_transaction_hash string = None).
Proof.
  pose proof (re_search_spec hash_char string) as spec.
  unfold _get_transaction_hash.
  destruct (re_search hash_char string) as [h0|].
  - destruct spec as [pre [ds [post [-> [[e [b _]] _]]]]]; split.
    + intros h [= <-]; split.
      * exists pre, post; rewrite e, hash_prefix_split, <- !app_assoc.
        reflexivity.
      * cbn [length]; lia.
    + intros short; exfalso.
      apply (f_equal (@length N)) in e; rewrite !length_app in e.
      change (length (lit "Transaction hash: 0x")) with 20%nat in e; lia.
  - split; [discriminate | reflexivity].
Qed.

Lemma get_transaction_hash_bounds_witness :
  _get_transaction_hash (lit "Transaction hash: 0x") = None.
Proof.
  apply (proj2 (get_transaction_hash_bounds (lit "Transaction hash: 0x"))).
  vm_compute; lia.
Defined.

(** ** [call_or_invoke] *)

Lemma async_def_raised (A : Type) (body : M A) (l l' : log) (err : exn) :
  body l = (Raised err, l') -> exn_cls err <> StopIteration ->
  async_def body l = (Raised err, l').
Proof.
  intros e n; unfold async_def; rewrite e.
  destruct err as [[] msg]; try reflexivity; exfalso; apply n; reflexivity.
Qed.

Section DispatcherMore.

Variable report : Type.
Variable E : Env report.

Variables (type method : pystr) (params : list pystr) (network : pystr).
Variables (signature : option (list pystr)).
Variables (max_fee query_flag watch_mode : option pystr).

Local Abbreviation req address abi :=
  (request type network params signature max_fee query_flag address abi
     method).

Local Abbreviation run contract :=
  (call_or_invoke E contract type method params network signature max_fee
     query_flag watch_mode).

Lemma run_returned (contract : contract_ref) (address abi output : pystr)
  (l l' : log) :
  resolve E contract network = Returned (address, abi) ->
  execute_call E (req address abi) l = (Returned output, l') ->
  run contract l
  = async_def (translate E type network query_flag watch_mode
                 (Returned output)) l'.
Proof.
  intros r e; erewrite call_or_invoke_resolved by exact r.
  erewrite dispatch_returned by exact e; reflexivity.
Qed.

Lemma run_raised (contract : contract_ref) (address abi : pystr) (err : exn)
  (l l' : log) :
  resolve E contract network = Returned (address, abi) ->
  execute_call E (req address abi) l = (Raised err, l') ->
  exists record, run contract l = (Returned VNone, l' ++ [record]).
Proof.
  intros r e; erewrite call_or_invoke_resolved by exact r.
  erewrite dispatch_raised by exact e; eexists; reflexivity.
Qed.

Lemma watch_not_taken (output : pystr) :
  type = lit "call" \/ output = [] \/ truthy_opt query_flag = true \/
  truthy_opt watch_mode = false ->
  watch_taken type output query_flag watch_mode = false.
Proof.
  unfold watch_taken; intros [-> | [-> | [-> | ->]]].
  - reflexivity.
  - rewrite andb_false_r; reflexivity.
  - rewrite andb_false_r; reflexivity.
  - apply andb_false_r.
Qed.

(** Outside the watch the raw output comes back, and the dispatcher logs
    it exactly when the type is not "call" and the output is not empty:
    a call and an empty output leave the log as [execute_call] left it,
    and an invoke with a query flag or without a watch mode adds the one
    record of [logging.info(output)]. *)
Theorem output_returned_without_watch (contract : contract_ref)
  (address abi output : pystr) (l l' : log) :
  resolve E contract network = Returned (address, abi) ->
  execute_call E (req address abi) l = (Returned output, l') ->
  (type = lit "call" \/ output = [] ->
   run contract l = (Returned (VStr output), l')) /\
  (type <> lit "call" -> output <> [] ->
   truthy_opt query_flag = true \/ truthy_opt watch_mode = false ->
   run contract l = (Returned (VStr output), l' ++ [(INFO, output)])).
Proof.
  intros r e; rewrite (run_returned _ _ r e).
  unfold async_def, translate, bind, logging_info, ret; split.
  - intros [-> | ->]; [reflexivity|].
    rewrite andb_false_r; reflexivity.
  - intros nc ne w.
    assert (str_eqb type (lit "call") = false) as t.
    { destruct (str_eqb type (lit "call")) eqn:t; [|reflexivity].
      apply str_eqb_eq in t; contradiction. }
    rewrite t; destruct output; [contradiction|]; simpl.
    destruct w as [-> | ->]; [reflexivity|].
    rewrite andb_false_r; reflexivity.
Qed.

(** A report of [status] is returned only through the watch:
    [execute_call] returned a non-empty output for a type other than
    "call", no query flag was set, a watch mode was, and the report is
    what [status] returned for the number [normalize_number] made of the
    extracted hash. *)
Theorem report_only_from_watch (contract : contract_ref)
  (address abi : pystr) (st : report) (l l2 : log) :
  resolve E contract network = Returned (address, abi) ->
  run contract l = (Returned (VReport st), l2) ->
  exists output l' n l1,
    execute_call E (req address abi) l = (Returned output, l') /\
    type <> lit "call" /\ output <> [] /\
    truthy_opt query_flag = false /\ truthy_opt watch_mode = true /\
    normalize_number E (_get_transaction_hash output)
      (l' ++ [(INFO, output)]) = (Returned n, l1) /\
    status E n network watch_mode l1 = (Returned st, l2).
Proof.
  intros r c.
  destruct (execute_call E (req address abi) l) as [[output | err] l'] eqn:e.
  - rewrite (run_returned _ _ r e) in c; apply async_def_returned in c.
    destruct (watch_taken type output query_flag watch_mode) eqn:w.
    + rewrite (translate_watch E _ _ _ _ _ _ w) in c; unfold bind, ret in c.
      destruct (normalize_number E _ _) as [[n | e1] l1] eqn:nn;
        [|discriminate].
      destruct (status E n network watch_mode l1) as [[st' | e2] l3] eqn:ss;
        [|discriminate].
      injection c as <- <-.
      apply watch_taken_iff in w; destruct w as [w1 [w2 [w3 w4]]].
      exists output, l', n, l1; repeat split; assumption.
    + destruct (translate_no_watch E _ network _ _ _ l' w) as [l3 t].
      rewrite t in c; discriminate.
  - destruct (run_raised _ _ r e) as [record c']; rewrite c' in c; discriminate.
Qed.

(** The [try] statement covers [execute_call] only: an exception of
    [normalize_number] or of [status] during the watch is neither logged
    nor turned into [None]; it leaves [call_or_invoke]. *)
Theorem watch_failures_propagate (contract : contract_ref)
  (address abi output : pystr) (err : exn) (l l' : log) :
  resolve E contract network = Returned (address, abi) ->
  execute_call E (req address abi) l = (Returned output, l') ->
  watch_taken type output query_flag watch_mode = true ->
  exn_cls err <> StopIteration ->
  (forall l1,
     normalize_number E (_get_transaction_hash output)
       (l' ++ [(INFO, output)]) = (Raised err, l1) ->
     run contract l = (Raised err, l1)) /\
  (forall n l1 l2,
     normalize_number E (_get_transaction_hash output)
       (l' ++ [(INFO, output)]) = (Returned n, l1) ->
     status E n network watch_mode l1 = (Raised err, l2) ->
     run contract l = (Raised err, l2)).
Proof.
  intros r e w ns; rewrite (run_returned _ _ r e); split.
  - intros l1 nn; apply async_def_raised; [|exact ns].
    rewrite (translate_watch E _ _ _ _ _ _ w); unfold bind; rewrite nn; reflexivity.
  - intros n l1 l2 nn ss; apply async_def_raised; [|exact ns].
    rewrite (translate_watch E _ _ _ _ _ _ w); unfold bind; rewrite nn, ss.
    reflexivity.
Qed.

(** For a resolved target, [call_or_invoke] cannot raise as long as the
    watch is not asked for: a call, a query, or no watch mode. *)
Theorem no_exception_without_watch (contract : contract_ref)
  (address abi : pystr) (l : log) :
  resolve E contract network = Returned (address, abi) ->
  type = lit "call" \/ truthy_opt query_flag = true \/
  truthy_opt watch_mode = false ->
  exists v l2, run contract l = (Returned v, l2).
Proof.
  intros r w.
  destruct (execute_call E (req address abi) l) as [[output | err] l'] eqn:e.
  - rewrite (run_returned _ _ r e).
    assert (watch_taken type output query_flag watch_mode = false) as nw
      by (apply watch_not_taken; tauto).
    destruct (translate_no_watch E _ network _ _ _ l' nw) as [l3 t].
    exists (VStr output), l3; unfold async_def; rewrite t; reflexivity.
  - destruct (run_raised _ _ r e) as [record c]; eexists _, _; exact c.
Qed.

End DispatcherMore.

Lemma output_returned_without_watch_witness :
  call_or_invoke (scripted a_deployment (Returned sent_with_hash))
    (Identifier (lit "contract")) (lit "call") (lit "get_balance") []
    (lit "goerli") None None None (Some (lit "track")) []
  = (Returned (VStr sent_with_hash), []).
Proof.
  exact (proj1 (@output_returned_without_watch Z
                  (scripted a_deployment (Returned sent_with_hash))
                  (lit "call") (lit "get_balance") [] (lit "goerli") None
                  None None (Some (lit "track"))
                  (Identifier (lit "contract")) (lit "0x1")
                  (lit "artifacts/abis/contract.json") sent_with_hash [] []
                  eq_refl eq_refl) (or_introl eq_refl)).
Defined.

Lemma report_only_from_watch_witness :
  exists output l' n l1,
    execute_call (scripted a_deployment (Returned sent_with_hash))
      (request (lit "invoke") (lit "goerli") [lit "1"] None (Some (lit "1"))
         None (lit "0x1") (lit "artifacts/abis/contract.json")
         (lit "increase_balance")) []
    = (Returned output, l') /\
    lit "invoke" <> lit "call" /\ output <> [] /\
    truthy_opt None = false /\ truthy_opt (Some (lit "track")) = true /\
    normalize_number (scripted a_deployment (Returned sent_with_hash))
      (_get_transaction_hash output) (l' ++ [(INFO, output)])
    = (Returned n, l1) /\
    status (scripted a_deployment (Returned sent_with_hash)) n (lit "goerli")
      (Some (lit "track")) l1
    = (Returned 0%Z, [(INFO, sent_with_hash)]).
Proof.
  exact (@report_only_from_watch Z
           (scripted a_deployment (Returned sent_with_hash)) (lit "invoke")
           (lit "increase_balance") [lit "1"] (lit "goerli") None
           (Some (lit "1")) None (Some (lit "track"))
           (Identifier (lit "contract")) (lit "0x1")
           (lit "artifacts/abis/contract.json") 0%Z []
           [(INFO, sent_with_hash)] eq_refl eq_refl).
Defined.

Lemma watch_failures_propagate_witness :
  call_or_invoke (watch_fails a_deployment sent_with_hash)
    (Identifier (lit "contract")) (lit "invoke") (lit "increase_balance")
    [lit "1"] (lit "goerli") None (Some (lit "1")) None (Some (lit "track"))
    []
  = (Raised other_error, [(INFO, sent_with_hash)]).
Proof.
  refine (proj2 (@watch_failures_propagate Z
                   (watch_fails a_deployment sent_with_hash) (lit "invoke")
                   (lit "increase_balance") [lit "1"] (lit "goerli") None
                   (Some (lit "1")) None (Some (lit "track"))
                   (Identifier (lit "contract")) (lit "0x1")
                   (lit "artifacts/abis/contract.json") sent_with_hash
                   other_error [] [] eq_refl eq_refl eq_refl _)
            0%Z [(INFO, sent_with_hash)] [(INFO, sent_with_hash)]
            eq_refl eq_refl).
  discriminate.
Defined.

Lemma no_exception_without_watch_witness :
  exists v l2,
    call_or_invoke (watch_fails a_deployment sent_with_hash)
      (Identifier (lit "contract")) (lit "invoke") (lit "increase_balance")
      [lit "1"] (lit "goerli") None (Some (lit "1")) None None []
    = (Returned v, l2).
Proof.
  apply (@no_exception_without_watch Z
           (watch_fails a_deployment sent_with_hash) (lit "invoke")
           (lit "increase_balance") [lit "1"] (lit "goerli") None
           (Some (lit "1")) None None (Identifier (lit "contract"))
           (lit "0x1") (lit "artifacts/abis/contract.json") [] eq_refl).
  right; right; reflexivity.
Defined.

(** ** The [invoke] and [call] commands, continued *)

Section CommandMore.

Variable report : Type.
Variable E : Env report.

Variables (contract_name method : pystr) (params : list pystr).
Variable network : pystr.

(** [call] never raises for a resolved target: it logs the output of a
    successful [execute_call] once and nothing else, and after a failure
    the one record of the dispatcher and then the text "None". *)
Theorem call_logs_result (address abi : pystr)
  (others : list (pystr * pystr)) (l : log) :
  deployments_load E contract_name network = (address, abi) :: others ->
  (forall output l',
     execute_call E
       (request (lit "call") network params None None None address abi
          method) l = (Returned output, l') ->
     cli.call E contract_name method params network l
     = (Returned tt, l' ++ [(INFO, output)])) /\
  (forall err l',
     execute_call E
       (request (lit "call") network params None None None address abi
          method) l = (Raised err, l') ->
     exists record,
       cli.call E contract_name method params network l
       = (Returned tt, l' ++ [record; (INFO, lit "None")])).
Proof.
  intros d; split.
  - intros output l' e; unfold cli.call.
    unfold async_def at 1; unfold bind at 1.
    erewrite call_or_invoke_resolved by exact (resolve_first _ _ _ d).
    erewrite dispatch_returned by exact e; reflexivity.
  - intros err l' e; unfold cli.call.
    unfold async_def at 1; unfold bind at 1.
    erewrite call_or_invoke_resolved by exact (resolve_first _ _ _ d).
    erewrite dispatch_raised by exact e.
    eexists; unfold async_def, logging_info; simpl.
    rewrite <- app_assoc; reflexivity.
Qed.

End CommandMore.

Lemma call_logs_result_witness :
  cli.call (scripted a_deployment (Returned (lit "42"))) (lit "contract")
    (lit "get_balance") [] (lit "goerli") []
  = (Returned tt, [(INFO, lit "42")]).
Proof.
  exact (proj1 (@call_logs_result Z
                  (scripted a_deployment (Returned (lit "42")))
                  (lit "contract") (lit "get_balance") [] (lit "goerli")
                  (lit "0x1") (lit "artifacts/abis/contract.json") [] []
                  eq_refl) (lit "42") [] eq_refl).
Defined.
